(** * A single-route Flask application: [page] and [get_page]

  Shallow embedding of [app/main.py] (and of the two checks of
  [app/test_main.py]) together with the small part of the Python runtime
  and of the Flask framework that the module relies on:

  - [PyStr]: [str.format] restricted to positional [str] arguments;
  - [Py]: a state-and-exception monad for Python function bodies;
  - [Flask]: requests, responses, the routing table and the dispatch loop.

  Python text is represented by a Rocq [string].  Non-ASCII text stands
  for its UTF-8 encoding; [str.format] only inspects the ASCII characters
  brace, digit, dot, bracket, bang and colon, none of which occurs inside
  a multi-byte sequence, so substitution commutes with the encoding. *)

From Stdlib Require Import String Ascii List NArith Bool Lia.
Import ListNotations.

Local Open Scope string_scope.
Local Open Scope list_scope.

(** ** Exceptions and results *)

(** The exceptions [str.format] can raise, and [NotModelled] for the part
  of the format mini-language (conversions, format specifications,
  attribute and item access, nested fields) that is left out. *)
Inductive exn : Type :=
| ValueError
| IndexError
| KeyError
| NotModelled.

Inductive result (A : Type) : Type :=
| Ok (a : A)
| Raise (e : exn).

Arguments Ok {A} a.
Arguments Raise {A} e.

Definition result_map {A B : Type} (f : A -> B) (r : result A) : result B :=
match r with
| Ok a => Ok (f a)
| Raise e => Raise e
end.

(** ** [str.format] *)

Module PyStr.

Definition lbrace : ascii := "{"%char.
Definition rbrace : ascii := "}"%char.

(** Largest index a replacement field may carry (64-bit build). *)
Definition PY_SSIZE_T_MAX : N := 9223372036854775807.

Definition digit_value (c : ascii) : option N :=
  let n := N_of_ascii c in
  if (48 <=? n)%N && (n <=? 57)%N then Some (n - 48)%N else None.

(** Decimal value of a string of digits; [None] when a character is not
    a digit. *)
Fixpoint get_integer (s : string) (acc : N) : option N :=
  match s with
  | EmptyString => Some acc
  | String c s' =>
      match digit_value c with
      | Some d => get_integer s' (10 * acc + d)%N
      | None => None
      end
  end.

(** Characters that start a part of a replacement field outside the
    modelled fragment. *)
Definition special (c : ascii) : bool :=
  (c =? ".")%char || (c =? "[")%char || (c =? "!")%char || (c =? ":")%char.

Fixpoint has_special (s : string) : bool :=
  match s with
  | EmptyString => false
  | String c s' => special c || has_special s'
  end.

(** State of the automatic field numbering. *)
Inductive numbering : Type :=
| Unset
| Auto (next : nat)
| Manual.

(** The argument a field name selects, and the numbering state after it.
    There are no keyword arguments, so a name that is not a number is a
    missing key. *)
Definition get_field (name : string) (args : list string) (st : numbering)
  : result (string * numbering) :=
  if has_special name then Raise NotModelled
  else
    match name with
    | EmptyString =>
        match st with
        | Manual => Raise ValueError
        | Unset =>
            match nth_error args 0 with
            | Some v => Ok (v, Auto 1)
            | None => Raise IndexError
            end
        | Auto n =>
            match nth_error args n with
            | Some v => Ok (v, Auto (S n))
            | None => Raise IndexError
            end
        end
    | String _ _ =>
        match get_integer name 0 with
        | None => Raise KeyError
        | Some i =>
            if (PY_SSIZE_T_MAX <? i)%N then Raise ValueError
            else
              match st with
              | Auto _ => Raise ValueError
              | Unset | Manual =>
                  match nth_error args (N.to_nat i) with
                  | Some v => Ok (v, Manual)
                  | None => Raise IndexError
                  end
              end
        end
    end.

(** One left-to-right pass over the format string.  [format_text] reads
    literal text, [format_field] the name of a replacement field whose
    opening brace was just read. *)
Fixpoint format_text (s : string) (args : list string) (st : numbering)
  : result string :=
  match s with
  | EmptyString => Ok EmptyString
  | String c s' =>
      if (c =? lbrace)%char then
        match s' with
        | EmptyString => Raise ValueError
        | String c' s'' =>
            if (c' =? lbrace)%char
            then result_map (String lbrace) (format_text s'' args st)
            else format_field s' EmptyString args st
        end
      else if (c =? rbrace)%char then
        match s' with
        | EmptyString => Raise ValueError
        | String c' s'' =>
            if (c' =? rbrace)%char
            then result_map (String rbrace) (format_text s'' args st)
            else Raise ValueError
        end
      else result_map (String c) (format_text s' args st)
  end
with format_field (s : string) (name : string) (args : list string)
       (st : numbering) : result string :=
  match s with
  | EmptyString => Raise ValueError
  | String c s' =>
      if (c =? rbrace)%char then
        match get_field name args st with
        | Raise e => Raise e
        | Ok (v, st') => result_map (append v) (format_text s' args st')
        end
      else if (c =? lbrace)%char then Raise NotModelled
      else format_field s' (name ++ String c EmptyString) args st
  end.

(** [fmt.format(args...)] with positional arguments only. *)
Definition format (fmt : string) (args : list string) : result string :=
  format_text fmt args Unset.

(** No brace occurs in [s]. *)
Fixpoint brace_free (s : string) : bool :=
  match s with
  | EmptyString => true
  | String c s' =>
      negb (c =? lbrace)%char && negb (c =? rbrace)%char && brace_free s'
  end.

(** [needle in hay] *)
Fixpoint contains (needle hay : string) : bool :=
  prefix needle hay ||
  match hay with
  | EmptyString => false
  | String _ hay' => contains needle hay'
  end.

End PyStr.

(** ** HTTP messages *)

Record Request : Type := {
  method : string;
  path : string;
  query_string : string;
  headers : list (string * string);
  body : string
}.

Record Response : Type := {
  status_code : N;
  data : string;
  mimetype : string
}.

Section App.

(** Mutable state of the interpreter outside the request context: module
    globals, objects on the heap.  Nothing is assumed about it. *)
Variable globals : Type.

(** What the framework answers when no rule of the application matches
    the path and method of a request, and when a view function raises.
    Both are the framework's own defaults and are left open. *)
Variable framework_default : Request -> Response.
Variable handle_exception : exn -> Response.

(** The name under which the module is loaded, [__name__]. *)
Variable module_name : string.

(** ** The state a Python function runs in *)

Record world : Type := {
  request_ctx : list Request;
  module_state : globals
}.

(** A function body: it may read and update the world, and it returns a
    value or raises. *)
Definition Py (A : Type) : Type := world -> world * result A.

Definition ret {A : Type} (a : A) : Py A := fun w => (w, Ok a).

Definition raise {A : Type} (e : exn) : Py A := fun w => (w, Raise e).

Definition bind {A B : Type} (m : Py A) (k : A -> Py B) : Py B :=
  fun w =>
    match m w with
    | (w', Ok a) => k a w'
    | (w', Raise e) => (w', Raise e)
    end.

(** A call into the runtime that touches no state. *)
Definition lift {A : Type} (r : result A) : Py A := fun w => (w, r).

(** World after running [m]. *)
Definition exec {A : Type} (m : Py A) (w : world) : world := fst (m w).

(** Value returned, or exception raised, by running [m]. *)
Definition eval {A : Type} (m : Py A) (w : world) : result A := snd (m w).

Notation "x <- m ;; k" := (bind m (fun x => k))
  (at level 61, m at next level, right associativity).

(** ** Flask *)

Definition view : Type := Py string.

Record Rule : Type := {
  rule : string;
  methods : list string;
  endpoint : string
}.

Record FlaskApp : Type := {
  import_name : string;
  url_map : list Rule;
  view_functions : list (string * view)
}.

(** [Flask(import_name)]: an application without routes. *)
Definition Flask (name : string) : FlaskApp :=
  {| import_name := name; url_map := []; view_functions := [] |}.

(** [@a.route(rule)] applied to the function [f] named [name].  Without a
    [methods] argument the rule answers GET; the HEAD and OPTIONS answers
    the framework derives from it are part of [framework_default]. *)
Definition route (a : FlaskApp) (rule_str : string) (name : string)
  (f : view) : FlaskApp :=
  {| import_name := import_name a;
     url_map := url_map a ++
       [ {| rule := rule_str; methods := ["GET"]; endpoint := name |} ];
     view_functions := (name, f) :: view_functions a |}.

(** A rule without variable parts matches the path equal to it. *)
Definition rule_matches (req : Request) (r : Rule) : bool :=
  (rule r =? path req) && existsb (String.eqb (method req)) (methods r).

Definition match_request (a : FlaskApp) (req : Request) : option Rule :=
  find (rule_matches req) (url_map a).

Fixpoint lookup_view (name : string) (fs : list (string * view))
  : option view :=
  match fs with
  | [] => None
  | (n, f) :: fs' => if (n =? name) then Some f else lookup_view name fs'
  end.

(** A [str] returned by a view becomes the body of a 200 response with
    the default content type. *)
Definition make_response (rv : result string) : Response :=
  match rv with
  | Ok s => {| status_code := 200; data := s; mimetype := "text/html" |}
  | Raise e => handle_exception e
  end.

Definition full_dispatch_request (a : FlaskApp) (req : Request)
  : world -> world * Response :=
  fun w =>
    match match_request a req with
    | None => (w, framework_default req)
    | Some r =>
        match lookup_view (endpoint r) (view_functions a) with
        | None => (w, framework_default req)
        | Some f => let (w', rv) := f w in (w', make_response rv)
        end
    end.

Definition push_request (req : Request) (w : world) : world :=
  {| request_ctx := req :: request_ctx w; module_state := module_state w |}.

Definition pop_request (w : world) : world :=
  {| request_ctx := tl (request_ctx w); module_state := module_state w |}.

(** One request: the request context is pushed, the request dispatched,
    the context popped. *)
Definition wsgi_app (a : FlaskApp) (req : Request)
  : world -> world * Response :=
  fun w =>
    let (w', resp) := full_dispatch_request a req (push_request req w) in
    (pop_request w', resp).

(** Requests handled one after the other. *)
Fixpoint serve (a : FlaskApp) (reqs : list Request) (w : world)
  : world * list Response :=
  match reqs with
  | [] => (w, [])
  | req :: reqs' =>
      let (w1, resp) := wsgi_app a req w in
      let (w2, resps) := serve a reqs' w1 in
      (w2, resp :: resps)
  end.

(** [a.test_client().get(p)]: a GET request for [p] with no query string,
    no headers and no body. *)
Definition client_get (a : FlaskApp) (p : string) : Py Response :=
  fun w =>
    let (w', resp) :=
      wsgi_app a {| method := "GET"; path := p; query_string := "";
                    headers := []; body := "" |} w in
    (w', Ok resp).

(** ** [app/main.py] *)

Definition dquote : string := String "034"%char EmptyString.

(** The literal of [page], between its triple quotes. *)
Definition html_template : string := "
        <html>
        <head lang> 
            <meta charset=" ++ dquote ++ "utf-8" ++ dquote ++ ">
            <title>Index</title>
        </head>
        <body>
            <div style='font-size:60px;'>
            <center>
                {0}<br>
            </center>
            </div>
        </body>
        </html>".

Definition page (message : string) : Py string :=
  html <- lift (PyStr.format html_template [message]) ;;
  ret html.

Definition get_page : Py string :=
  let message := "Hello CGI!!! Welcome to the world of DevOps :)" in
  page message.

(** The module global [app] once the module is loaded: the application
    object with [get_page] registered for the root path. *)
Definition app : FlaskApp :=
  route (Flask module_name) "/" "get_page" get_page.

(** ** [app/test_main.py] *)

Definition test_status_code : Py bool :=
  response <- client_get app "/" ;;
  ret (status_code response =? 200)%N.

Definition test_message : Py bool :=
  response <- client_get app "/" ;;
  message <- page "Hello CGI!!! Welcome to the world of DevOps :)" ;;
  ret (data response =? message).

(** ** Constants of the statements *)

(** The template up to its replacement field, and from there on. *)
Definition page_prefix : string := "
        <html>
        <head lang> 
            <meta charset=" ++ dquote ++ "utf-8" ++ dquote ++ ">
            <title>Index</title>
        </head>
        <body>
            <div style='font-size:60px;'>
            <center>
                ".

Definition page_suffix : string := "<br>
            </center>
            </div>
        </body>
        </html>".

(** Length of the template without its replacement field. *)
Definition page_overhead : nat :=
  String.length html_template - String.length "{0}".

(** A line feed and the eight blanks the template starts with. *)
Definition newline_indent : string := String "010"%char "        ".

(** Every string of [needles] occurs in [s]. *)
Definition contains_all (needles : list string) (s : string) : bool :=
  forallb (fun n => PyStr.contains n s) needles.

Definition is_get_root (req : Request) : Prop :=
  method req = "GET" /\ path req = "/".

(** The answer of the root path. *)
Definition welcome_response : Response :=
  {| status_code := 200;
     data := page_prefix ++ "Hello CGI!!! Welcome to the world of DevOps :)"
               ++ page_suffix;
     mimetype := "text/html" |}.

(** A GET request as the test client builds it. *)
Definition get_request (p : string) : Request :=
  {| method := "GET"; path := p; query_string := ""; headers := [];
     body := "" |}.

Definition plain_response (code : N) : Response :=
  {| status_code := code; data := ""; mimetype := "text/html" |}.

(** [is_get_root] as a test. *)
Definition is_get_root_b (req : Request) : bool :=
  (method req =? "GET") && (path req =? "/").

(** What the application answers to a request, whatever came before. *)
Definition answer (req : Request) : Response :=
  if is_get_root_b req then welcome_response else framework_default req.

(** * Properties *)

Local Open Scope string_scope.

Lemma Ok_inj {A : Type} (a b : A) : Ok a = Ok b -> a = b.
Proof. intros H. now injection H. Qed.

(** ** Strings *)

Lemma append_assoc (a b c : string) : (a ++ b) ++ c = a ++ (b ++ c).
Proof.
  induction a as [| x a IH]; simpl; [reflexivity | now rewrite IH].
Qed.

Lemma append_length (a b : string) :
  String.length (a ++ b) = String.length a + String.length b.
Proof.
  induction a as [| x a IH]; simpl; [reflexivity | now rewrite IH].
Qed.

Lemma append_inv_head (p a b : string) : p ++ a = p ++ b -> a = b.
Proof.
  induction p as [| x p IH]; simpl; intros H; [exact H |].
  injection H as H. now apply IH.
Qed.

Lemma append_inv_tail (s a b : string) : a ++ s = b ++ s -> a = b.
Proof.
  revert b.
  induction a as [| x a IH]; intros [| y b] H; simpl in H.
  - reflexivity.
  - apply (f_equal String.length) in H. simpl in H.
    rewrite append_length in H. lia.
  - apply (f_equal String.length) in H. simpl in H.
    rewrite append_length in H. lia.
  - injection H as Hx Hs. subst y. f_equal. now apply IH.
Qed.

Lemma prefix_append (m s : string) : prefix m (m ++ s) = true.
Proof.
  induction m as [| x m IH]; simpl.
  - now destruct s.
  - destruct (ascii_dec x x) as [_ | N]; [exact IH | now elim N].
Qed.

Lemma substring_prefix (m s : string) :
  substring 0 (String.length m) (m ++ s) = m.
Proof.
  induction m as [| x m IH]; simpl.
  - now destruct s.
  - now rewrite IH.
Qed.

Lemma substring_skip (p r : string) (n : nat) :
  substring (String.length p) n (p ++ r) = substring 0 n r.
Proof.
  induction p as [| x p IH]; simpl; [reflexivity | exact IH].
Qed.

Lemma contains_unfold (needle hay : string) :
  PyStr.contains needle hay =
  prefix needle hay ||
  match hay with
  | EmptyString => false
  | String _ hay' => PyStr.contains needle hay'
  end.
Proof. now destruct hay. Qed.

Lemma contains_append (a m b : string) :
  PyStr.contains m (a ++ m ++ b) = true.
Proof.
  induction a as [| x a IH].
  - simpl. rewrite contains_unfold, prefix_append. reflexivity.
  - rewrite contains_unfold. simpl. rewrite IH. apply orb_true_r.
Qed.

(** ** [str.format] *)

Lemma format_text_cons (c : ascii) (s : string) (args : list string)
  (st : PyStr.numbering) :
  (c =? PyStr.lbrace)%char = false ->
  (c =? PyStr.rbrace)%char = false ->
  PyStr.format_text (String c s) args st =
  result_map (String c) (PyStr.format_text s args st).
Proof.
  intros Hl Hr. cbn [PyStr.format_text]. now rewrite Hl, Hr.
Qed.

Lemma brace_free_cons (c : ascii) (s : string) :
  PyStr.brace_free (String c s) = true ->
  (c =? PyStr.lbrace)%char = false /\
  (c =? PyStr.rbrace)%char = false /\
  PyStr.brace_free s = true.
Proof.
  cbn [PyStr.brace_free]. intros H.
  apply andb_true_iff in H as [H Hs].
  apply andb_true_iff in H as [Hl Hr].
  apply negb_true_iff in Hl, Hr. now repeat split.
Qed.

(** Text without braces is copied. *)
Lemma format_text_literal (p rest : string) (args : list string)
  (st : PyStr.numbering) :
  PyStr.brace_free p = true ->
  PyStr.format_text (p ++ rest) args st =
  result_map (append p) (PyStr.format_text rest args st).
Proof.
  induction p as [| c p IH]; intros Hp.
  - simpl. now destruct (PyStr.format_text rest args st).
  - apply brace_free_cons in Hp as (Hl & Hr & Hp).
    change (String c p ++ rest) with (String c (p ++ rest)).
    rewrite (format_text_cons _ _ _ _ Hl Hr), (IH Hp).
    now destruct (PyStr.format_text rest args st).
Qed.

Lemma format_text_brace_free (q : string) (args : list string)
  (st : PyStr.numbering) :
  PyStr.brace_free q = true -> PyStr.format_text q args st = Ok q.
Proof.
  induction q as [| c q IH]; intros Hq; [reflexivity |].
  apply brace_free_cons in Hq as (Hl & Hr & Hq).
  now rewrite (format_text_cons _ _ _ _ Hl Hr), (IH Hq).
Qed.

(** A format string with the single field [{0}] between two brace-free
    parts puts its first argument between them. *)
Lemma format_single_field (p q m : string) (args : list string) :
  PyStr.brace_free p = true ->
  PyStr.brace_free q = true ->
  PyStr.format (p ++ "{0}" ++ q) (m :: args) = Ok (p ++ m ++ q).
Proof.
  intros Hp Hq. unfold PyStr.format.
  rewrite (format_text_literal _ _ _ _ Hp).
  change (PyStr.format_text ("{0}" ++ q) (m :: args) PyStr.Unset)
    with (result_map (append m)
            (PyStr.format_text q (m :: args) PyStr.Manual)).
  now rewrite (format_text_brace_free _ _ _ Hq).
Qed.

Example format_auto_numbering :
  PyStr.format "{}-{}" ["a"; "b"] = Ok "a-b".
Proof. reflexivity. Qed.

Example format_escaped_braces :
  PyStr.format "{{{0}}}{0}" ["x"] = Ok "{x}x".
Proof. reflexivity. Qed.

Example format_single_rbrace : PyStr.format "a}b" ["x"] = Raise ValueError.
Proof. reflexivity. Qed.

Example format_index_out_of_range :
  PyStr.format "{1}" ["x"] = Raise IndexError.
Proof. reflexivity. Qed.

Example format_mixed_numbering :
  PyStr.format "{}{0}" ["x"] = Raise ValueError.
Proof. reflexivity. Qed.

Example format_missing_key : PyStr.format "{name}" ["x"] = Raise KeyError.
Proof. reflexivity. Qed.

(** ** [page] and [get_page] *)

Lemma html_template_split :
  html_template = page_prefix ++ "{0}" ++ page_suffix.
Proof. reflexivity. Qed.

Lemma page_run (message : string) (w : world) :
  page message w = (w, Ok (page_prefix ++ message ++ page_suffix)).
Proof.
  unfold page, bind, lift, ret.
  rewrite html_template_split, format_single_field by reflexivity.
  reflexivity.
Qed.

Lemma get_page_run (w : world) :
  get_page w = (w, Ok (data welcome_response)).
Proof. unfold get_page. now rewrite page_run. Qed.

(** ** Dispatch *)

Lemma pop_push_request (req : Request) (w : world) :
  pop_request (push_request req w) = w.
Proof. now destruct w. Qed.

Lemma match_request_root (req : Request) :
  is_get_root req ->
  match_request app req =
  Some {| rule := "/"; methods := ["GET"]; endpoint := "get_page" |}.
Proof.
  intros [Hm Hp]. unfold match_request, app, route, Flask, rule_matches.
  cbn [url_map app find rule methods].
  now rewrite Hm, Hp.
Qed.

Lemma lookup_view_get_page :
  lookup_view "get_page" (view_functions app) = Some get_page.
Proof. reflexivity. Qed.

Lemma wsgi_app_root (req : Request) (w : world) :
  is_get_root req -> wsgi_app app req w = (w, welcome_response).
Proof.
  intros Hreq. unfold wsgi_app, full_dispatch_request.
  rewrite (match_request_root _ Hreq).
  cbn [endpoint]. rewrite lookup_view_get_page.
  rewrite get_page_run, pop_push_request. reflexivity.
Qed.

Lemma serve_roots (reqs : list Request) (w : world) :
  Forall is_get_root reqs ->
  serve app reqs w = (w, map (fun _ => welcome_response) reqs).
Proof.
  induction 1 as [| req reqs Hreq _ IH]; [reflexivity |].
  cbn [serve map]. now rewrite (wsgi_app_root _ _ Hreq), IH.
Qed.

(** The two tests of [test_main.py] pass, in every world. *)
Lemma test_status_code_passes (w : world) :
  test_status_code w = (w, Ok true).
Proof.
  unfold test_status_code, bind, client_get, ret.
  now rewrite wsgi_app_root by (split; reflexivity).
Qed.

Lemma test_message_passes (w : world) : test_message w = (w, Ok true).
Proof.
  unfold test_message, bind, client_get, ret.
  rewrite wsgi_app_root by (split; reflexivity).
  rewrite page_run. cbn [data welcome_response].
  now rewrite String.eqb_refl.
Qed.

(** * The specification, claim by claim *)

(** C1: for every GET request to the root path, the response body is
    exactly the string that [page] returns for the fixed literal message
    Hello CGI!!! Welcome to the world of DevOps :) -- in whatever world
    [page] is run, which is how [test_message] compares the two -- and the
    handler calls [page] on that literal whatever the request is. *)
Theorem get_root_body_is_page_of_fixed_message
  (req : Request) (w w0 : world) :
  method req = "GET" -> path req = "/" ->
  eval (page "Hello CGI!!! Welcome to the world of DevOps :)") w0 =
    Ok (data (snd (wsgi_app app req w)))
  /\ get_page (push_request req w) =
     page "Hello CGI!!! Welcome to the world of DevOps :)"
       (push_request req w).
Proof.
  intros Hm Hp. split; [| reflexivity].
  unfold eval. rewrite page_run, wsgi_app_root by (split; assumption).
  reflexivity.
Qed.

(** C2: for every message, [page] returns a fixed HTML skeleton with the
    message put verbatim at one point, directly followed by a br element.
    The part before the message opens html, head (with the utf-8 charset
    meta tag and the title Index), body, a div of font size 60px and a
    center element; the part after it closes them; neither part holds a
    brace, so the template has no second replacement field, and no
    doctype or other markup declaration occurs. *)
Theorem page_is_fixed_skeleton_around_message (m : string) (w : world) :
  eval (page m) w = Ok (page_prefix ++ m ++ page_suffix)
  /\ prefix "<br>" page_suffix = true
  /\ PyStr.brace_free page_prefix = true
  /\ PyStr.brace_free page_suffix = true
  /\ contains_all
       [ "<html>"; "<head";
         "<meta charset=" ++ dquote ++ "utf-8" ++ dquote ++ ">";
         "<title>Index</title>"; "</head>"; "<body>";
         "<div style='font-size:60px;'>"; "<center>" ] page_prefix = true
  /\ contains_all [ "</center>"; "</div>"; "</body>"; "</html>" ]
       page_suffix = true
  /\ PyStr.contains "<!" (page_prefix ++ page_suffix) = false.
Proof.
  split; [unfold eval; now rewrite page_run |].
  repeat split; vm_compute; reflexivity.
Qed.

(** C3: the handler of the root path has no failure branch: every GET
    request to the root path is answered with status 200. *)
Theorem get_root_status_200 (req : Request) (w : world) :
  method req = "GET" -> path req = "/" ->
  status_code (snd (wsgi_app app req w)) = 200%N.
Proof.
  intros Hm Hp. now rewrite wsgi_app_root by (split; assumption).
Qed.

(** C4: for every message, of any length and with any characters, the
    page contains the message itself, unchanged: it is the substring of
    the page that starts where the replacement field stood. *)
Theorem page_contains_message_verbatim (m : string) (w : world) :
  exists html : string,
    eval (page m) w = Ok html
    /\ PyStr.contains m html = true
    /\ substring (String.length page_prefix) (String.length m) html = m.
Proof.
  exists (page_prefix ++ m ++ page_suffix).
  split; [unfold eval; now rewrite page_run |].
  split; [apply contains_append |].
  rewrite substring_skip. apply substring_prefix.
Qed.

(** C5: [page] is a deterministic, pure function of its message: two
    runs on the same message, in any two worlds, return the same value,
    and a run leaves the world as it found it. *)
Theorem page_deterministic_pure (m : string) (w1 w2 : world) :
  eval (page m) w1 = eval (page m) w2 /\ exec (page m) w1 = w1.
Proof. unfold eval, exec. now rewrite !page_run. Qed.

(** C6: [page] returns for every string, and for the empty string it
    returns the template with its replacement field taken out. *)
Theorem page_total (w : world) :
  (forall m : string, exists html : string, page m w = (w, Ok html))
  /\ eval (page "") w = Ok (page_prefix ++ page_suffix)
  /\ html_template = page_prefix ++ "{0}" ++ page_suffix.
Proof.
  split; [intros m; eexists; apply page_run |].
  split; [unfold eval; now rewrite page_run | reflexivity].
Qed.

(** C7: the root path is stateless and idempotent: after any requests
    whatsoever, every run of GET requests to the root path leaves the
    world unchanged and answers each of them with the same response, of
    status 200 and with the same body. *)
Theorem get_root_stateless_idempotent
  (before reqs : list Request) (w : world) :
  Forall is_get_root reqs ->
  serve app reqs (fst (serve app before w)) =
    (fst (serve app before w), map (fun _ => welcome_response) reqs)
  /\ status_code welcome_response = 200%N.
Proof. intros H. split; [now apply serve_roots | reflexivity]. Qed.

(** C8: [page] returns a fixed prefix, the message and a fixed suffix;
    the prefix starts with a line feed and blanks, so that neither the
    page nor the body of the answer to a GET request to the root path
    starts with the html tag. *)
Theorem page_is_prefix_message_suffix
  (m : string) (w : world) (req : Request) (w' : world) :
  method req = "GET" -> path req = "/" ->
  eval (page m) w = Ok (page_prefix ++ m ++ page_suffix)
  /\ prefix newline_indent page_prefix = true
  /\ prefix "<html>" (page_prefix ++ m ++ page_suffix) = false
  /\ prefix newline_indent (page_prefix ++ m ++ page_suffix) = true
  /\ prefix "<html>" (data (snd (wsgi_app app req w'))) = false
  /\ prefix newline_indent (data (snd (wsgi_app app req w'))) = true.
Proof.
  intros Hm Hp.
  split; [unfold eval; now rewrite page_run |].
  rewrite wsgi_app_root by (split; assumption).
  repeat split; reflexivity.
Qed.

(** C9: [page] is injective: two messages with the same page are the
    same message. *)
Theorem page_injective (m1 m2 : string) (w1 w2 : world) :
  eval (page m1) w1 = eval (page m2) w2 -> m1 = m2.
Proof.
  unfold eval. rewrite !page_run. cbn [snd]. intros H.
  apply Ok_inj, append_inv_head, append_inv_tail in H. exact H.
Qed.

(** C10: the length of the page is the length of the message plus a
    constant, the length of the template without its replacement field
    (292 characters). *)
Theorem page_length (m : string) (w : world) :
  page_overhead = 292
  /\ page_overhead = String.length page_prefix + String.length page_suffix
  /\ exists html : string,
       eval (page m) w = Ok html
       /\ String.length html = String.length m + page_overhead.
Proof.
  split; [reflexivity |]. split; [reflexivity |].
  exists (page_prefix ++ m ++ page_suffix).
  split; [unfold eval; now rewrite page_run |].
  rewrite !append_length.
  change page_overhead
    with (String.length page_prefix + String.length page_suffix).
  lia.
Qed.

(** * Further properties of the module and of its tests *)

Lemma is_get_root_b_true (req : Request) :
  is_get_root_b req = true <-> is_get_root req.
Proof.
  unfold is_get_root_b, is_get_root.
  rewrite andb_true_iff, !String.eqb_eq. reflexivity.
Qed.

Lemma is_get_root_b_false (req : Request) :
  is_get_root_b req = false <-> (method req <> "GET" \/ path req <> "/").
Proof.
  unfold is_get_root_b.
  rewrite andb_false_iff, !String.eqb_neq. reflexivity.
Qed.

Lemma match_request_other (req : Request) :
  is_get_root_b req = false -> match_request app req = None.
Proof.
  unfold is_get_root_b. intros H.
  unfold match_request, app, route, Flask, rule_matches.
  cbn [url_map List.app find rule methods existsb].
  rewrite orb_false_r, (String.eqb_sym "/"), andb_comm, H. reflexivity.
Qed.

Lemma wsgi_app_other (req : Request) (w : world) :
  is_get_root_b req = false ->
  wsgi_app app req w = (w, framework_default req).
Proof.
  intros H. unfold wsgi_app, full_dispatch_request.
  rewrite (match_request_other _ H), pop_push_request. reflexivity.
Qed.

Lemma wsgi_app_answer (req : Request) (w : world) :
  wsgi_app app req w = (w, answer req).
Proof.
  unfold answer. destruct (is_get_root_b req) eqn:E.
  - apply wsgi_app_root. now apply is_get_root_b_true.
  - now apply wsgi_app_other.
Qed.

Lemma serve_map_answer (reqs : list Request) (w : world) :
  serve app reqs w = (w, map answer reqs).
Proof.
  revert w. induction reqs as [| req reqs IH]; intros w; [reflexivity |].
  cbn [serve map]. now rewrite wsgi_app_answer, IH.
Qed.






(** ** The call of [str.format] in [page], for any template *)

Lemma format_text_rbrace (q : string) (args : list string)
  (st : PyStr.numbering) :
  prefix "}" q = false ->
  PyStr.format_text (String PyStr.rbrace q) args st = Raise ValueError.
Proof.
  intros H. destruct q as [| c q]; [reflexivity |].
  cbn [PyStr.format_text]. cbn [prefix] in H.
  destruct (ascii_dec "}" c) as [E | N].
  - destruct q; cbn [prefix] in H; discriminate H.
  - assert (Hc : (c =? PyStr.rbrace)%char = false)
      by (apply Ascii.eqb_neq; intros E; now apply N).
    cbn. now rewrite Hc.
Qed.

(** X6: what [page] relies on, for any template of its shape: when the
    text before and after the one field holds no brace, formatting puts
    the first argument in place of the field and copies the rest; further
    arguments are ignored, and the field may be written with its index or
    without. *)
Theorem format_one_field_substitutes (p q m : string) (args : list string) :
  PyStr.brace_free p = true ->
  PyStr.brace_free q = true ->
  PyStr.format (p ++ "{0}" ++ q) (m :: args) = Ok (p ++ m ++ q)
  /\ PyStr.format (p ++ "{}" ++ q) (m :: args) = Ok (p ++ m ++ q).
Proof.
  intros Hp Hq. unfold PyStr.format.
  rewrite !(format_text_literal _ _ _ _ Hp).
  change (PyStr.format_text ("{0}" ++ q) (m :: args) PyStr.Unset)
    with (result_map (append m)
            (PyStr.format_text q (m :: args) PyStr.Manual)).
  change (PyStr.format_text ("{}" ++ q) (m :: args) PyStr.Unset)
    with (result_map (append m)
            (PyStr.format_text q (m :: args) (PyStr.Auto 1))).
  rewrite !(format_text_brace_free _ _ _ Hq). split; reflexivity.
Qed.

(** X7: the field of such a template needs its argument: formatted with
    no argument the call raises IndexError, whatever follows the field. *)
Theorem format_one_field_without_argument (p q : string) :
  PyStr.brace_free p = true ->
  PyStr.format (p ++ "{0}" ++ q) [] = Raise IndexError.
Proof.
  intros Hp. unfold PyStr.format.
  rewrite (format_text_literal _ _ _ _ Hp). reflexivity.
Qed.


End App.

(** * The theorems at a concrete server

  The interpreter state is a counter, the framework answers an unmatched
  request with 404 and a raising view with 500, the module is loaded as
  [main], and the request is the one of the test client. *)

Local Open Scope string_scope.

Local Abbreviation world0 := {| request_ctx := []; module_state := 0 |}.
Local Abbreviation not_found := (fun _ : Request => plain_response 404).
Local Abbreviation server_error := (fun _ : exn => plain_response 500).
Local Abbreviation app0 := (app nat "main").
Local Abbreviation handle0 := (wsgi_app nat not_found server_error app0).
Local Abbreviation welcome := "Hello CGI!!! Welcome to the world of DevOps :)".

Lemma get_root_body_is_page_of_fixed_message_witness :
(method (get_request "/") = "GET" /\ path (get_request "/") = "/")
/\ eval nat (page nat welcome) world0 =
     Ok (data (snd (handle0 (get_request "/") world0)))
/\ get_page nat (push_request nat (get_request "/") world0) =
     page nat welcome (push_request nat (get_request "/") world0).
Proof.
split; [split; reflexivity |].
apply (get_root_body_is_page_of_fixed_message nat not_found server_error
         "main" (get_request "/") world0 world0); reflexivity.
Defined.

Lemma get_root_status_200_witness :
(method (get_request "/") = "GET" /\ path (get_request "/") = "/")
/\ status_code (snd (handle0 (get_request "/") world0)) = 200%N.
Proof.
split; [split; reflexivity |].
apply (get_root_status_200 nat not_found server_error "main"
         (get_request "/") world0); reflexivity.
Defined.

Lemma get_root_stateless_idempotent_witness :
Forall is_get_root [get_request "/"; get_request "/"]
/\ serve nat not_found server_error app0
     [get_request "/"; get_request "/"]
     (fst (serve nat not_found server_error app0
             [get_request "/missing"] world0)) =
   (fst (serve nat not_found server_error app0
           [get_request "/missing"] world0),
    [welcome_response; welcome_response]).
Proof.
assert (H : Forall is_get_root [get_request "/"; get_request "/"])
  by (repeat constructor).
split; [exact H |].
exact (proj1 (get_root_stateless_idempotent nat not_found server_error
                "main" [get_request "/missing"]
                [get_request "/"; get_request "/"] world0 H)).
Defined.

Lemma page_is_prefix_message_suffix_witness :
(method (get_request "/") = "GET" /\ path (get_request "/") = "/")
/\ eval nat (page nat "<b>hi</b>") world0 =
     Ok (page_prefix ++ "<b>hi</b>" ++ page_suffix)
/\ prefix "<html>" (data (snd (handle0 (get_request "/") world0))) = false.
Proof.
split; [split; reflexivity |].
destruct (page_is_prefix_message_suffix nat not_found server_error "main"
            "<b>hi</b>" world0 (get_request "/") world0
            eq_refl eq_refl) as (Hpage & _ & _ & _ & Hbody & _).
split; [exact Hpage | exact Hbody].
Defined.

Lemma page_injective_witness :
eval nat (page nat "abc") world0 =
  eval nat (page nat "abc") {| request_ctx := []; module_state := 7 |}
/\ "abc" = "abc".
Proof.
split; [reflexivity |].
apply (page_injective nat "abc" "abc" world0
         {| request_ctx := []; module_state := 7 |}); reflexivity.
Defined.


Lemma format_one_field_substitutes_witness :
  (PyStr.brace_free "<p>" = true /\ PyStr.brace_free "</p>" = true)
  /\ PyStr.format "<p>{0}</p>" ["hi"; "unused"] = Ok "<p>hi</p>"
  /\ PyStr.format "<p>{}</p>" ["hi"; "unused"] = Ok "<p>hi</p>".
Proof.
  split; [split; reflexivity |].
  apply (format_one_field_substitutes "<p>" "</p>" "hi" ["unused"]);
    reflexivity.
Defined.

Lemma format_one_field_without_argument_witness :
  PyStr.brace_free "<p>" = true
  /\ PyStr.format "<p>{0}</p>" [] = Raise IndexError.
Proof.
  split; [reflexivity |].
  apply (format_one_field_without_argument "<p>" "</p>"); reflexivity.
Defined.

